(** * frontend/server/handler.h: gRPC handler wrappers and the handler registry

    A shallow embedding of the emulator's handler layer: the stream
    interceptor [ServerStream], the handler base class [GRPCHandlerBase], the
    unary and server-streaming wrappers with their [Run] methods, and the
    name-keyed registry behind [HandlerRegisterer] and [GetHandler].

    The C++ code acts on process state: the flag read by
    [config::should_log_requests()], the [LOG(INFO)] sink, the transport
    writer, and whatever the user handler touches.  Here that state is a
    [World], threaded through a small state monad [M]. *)

From stdpp Require Import base option list strings gmap.

(** ** Collaborators declared outside this header *)

(** [absl::Status]: only [ok()] and [ToString()] are used by the header. *)
Class AbslStatus (Status : Type) := {
  ok : Status → bool;
  ToString : Status → string;
}.

(** Protocol-buffer messages: only [DebugString()] is used. *)
Class Message (T : Type) := DebugString : T → string.

(** [common/config.h]: [config::should_log_requests()] reads process state.
    [Env] is that state; the wrapped handlers and the transport may change
    it while a call runs. *)
Class Config (Env : Type) := log_requests : Env → bool.

(** The line feed written as [\n] in the C++ string literals. *)
Definition nl : string := String (Ascii.ascii_of_nat 10) EmptyString.

(** ** Process state and the effect monad *)

Section Effects.
Context {RequestContext Env RequestT ResponseT : Type}.
Context `{!Config Env}.

(** What the code of this header does that an observer can see, in the
    order it happens. *)
Inductive Event :=
| LogInfo (record : string)
    (** one [LOG(INFO) << record] statement was executed *)
| Invoked (ctx : RequestContext) (request : RequestT)
    (** control entered the wrapped [fn_] with these arguments *)
| Wrote (msg : ResponseT) (accepted : bool)
    (** [writer_->Write(msg)] was called and returned [accepted] *).

Record World := mkWorld {
  env : Env;
  trace : list Event;
}.

Definition M (A : Type) : Type := World → A * World.

#[export] Instance M_ret : MRet M := λ A x w, (x, w).
#[export] Instance M_bind : MBind M :=
  λ A B f m w, let '(x, w') := m w in f x w'.

Definition observe (e : Event) (w : World) : World :=
  {| env := env w; trace := trace w ++ [e] |}.

(** [config::should_log_requests()] *)
Definition should_log_requests : M bool :=
  λ w, (log_requests (env w), w).

(** [LOG(INFO) << record;] *)
Definition LOG_INFO (record : string) : M () :=
  λ w, ((), observe (LogInfo record) w).

(** [grpc::ServerWriterInterface<T>]: an abstract class whose [Write]
    hands a message to the transport and reports whether it was taken. *)
Record ServerWriterInterface := {
  Write : ResponseT → Env → bool * Env;
}.

(** The virtual call [writer->Write(msg)]. *)
Definition call_Write (writer : ServerWriterInterface) (msg : ResponseT)
  : M bool :=
  λ w, let '(accepted, e) := Write writer msg (env w) in
       (accepted, observe (Wrote msg accepted) {| env := e; trace := trace w |}).

(** *** Projections of a trace *)

Definition record_of (e : Event) : option string :=
  match e with LogInfo r => Some r | _ => None end.
Definition call_of (e : Event) : option (RequestContext * RequestT) :=
  match e with Invoked c r => Some (c, r) | _ => None end.
Definition write_of (e : Event) : option (ResponseT * bool) :=
  match e with Wrote m a => Some (m, a) | _ => None end.

(** The log records of a trace, oldest first. *)
Definition records (t : list Event) : list string := omap record_of t.
(** The entries into the wrapped function. *)
Definition calls (t : list Event) : list (RequestContext * RequestT) :=
  omap call_of t.
(** The messages handed to the transport writer, with its answers. *)
Definition writes (t : list Event) : list (ResponseT * bool) :=
  omap write_of t.
End Effects.

Arguments Event : clear implicits.
Arguments records {_ _ _} t : simpl never.
Arguments calls {_ _ _} t : simpl never.
Arguments writes {_ _ _} t : simpl never.
Arguments World : clear implicits.
Arguments M : clear implicits.
Arguments ServerWriterInterface : clear implicits.

(** ** ServerStream *)

Section ServerStream.
Context {RequestContext Env RequestT ResponseT : Type}.
Context `{!Config Env, !Message ResponseT}.

Local Abbreviation M := (M RequestContext Env RequestT ResponseT).

(** [ServerStream<T>] holds the writer it intercepts. *)
Record ServerStream := {
  writer_ : ServerWriterInterface Env ResponseT;
}.

Definition send_record (msg : ResponseT) : string :=
  "Sending streaming response:" +:+ nl +:+ DebugString msg.

(** [void Send(const T& msg)] *)
Definition Send (stream : ServerStream) (msg : ResponseT) : M () :=
  enabled ← should_log_requests;
  (if enabled : bool then LOG_INFO (send_record msg) else mret ());;
  (* the [bool] returned by [Write] is dropped *)
  call_Write (writer_ stream) msg;;
  mret ().
End ServerStream.

Arguments ServerStream : clear implicits.

(** ** GRPCHandlerBase *)

(** Base class for gRPC handlers: two constant strings. *)
Record GRPCHandlerBase := {
  service_name_ : string;
  method_name_ : string;
}.

(** The constructor [GRPCHandlerBase(service_name, method_name)]: a member
    initialiser list and an empty body. *)
Definition new_GRPCHandlerBase (service_name method_name : string)
  : GRPCHandlerBase :=
  {| service_name_ := service_name; method_name_ := method_name |}.

Definition service_name (h : GRPCHandlerBase) : string := service_name_ h.
Definition method_name (h : GRPCHandlerBase) : string := method_name_ h.

(** A class derived from [GRPCHandlerBase] can be seen as its base. *)
Class GRPCHandler (H : Type) := upcast : H → GRPCHandlerBase.

#[export] Instance GRPCHandlerBase_handler : GRPCHandler GRPCHandlerBase := id.

(** *** The texts the two [Run] methods stream into [LOG(INFO)] *)

Section Records.
Context {Status RequestT ResponseT : Type}.
Context `{!AbslStatus Status, !Message RequestT, !Message ResponseT}.

(** ["Request[" << service_name() << "." << method_name() << "]\n"
     << request->DebugString()] *)
Definition request_record (h : GRPCHandlerBase) (request : RequestT)
  : string :=
  "Request[" +:+ service_name h +:+ "." +:+ method_name h +:+ "]" +:+ nl
    +:+ DebugString request.

(** [(status.ok() ? "OK" : "Error: " + status.ToString())] *)
Definition outcome_text (status : Status) : string :=
  if ok status then "OK" else "Error: " +:+ ToString status.

(** The unary response record: tag, response text, outcome. *)
Definition response_record (h : GRPCHandlerBase) (response : ResponseT)
    (status : Status) : string :=
  "Response[" +:+ service_name h +:+ "." +:+ method_name h +:+ "]" +:+ nl
    +:+ DebugString response +:+ nl +:+ outcome_text status.

(** The streaming completion record: tag and outcome only. *)
Definition completion_record (h : GRPCHandlerBase) (status : Status)
  : string :=
  "Response[" +:+ service_name h +:+ "." +:+ method_name h +:+ "]" +:+ nl
    +:+ outcome_text status.
End Records.

(** ** UnaryGRPCHandler *)

Module UnaryGRPCHandler.
Section Unary.
Context {RequestContext Env Status RequestT ResponseT : Type}.
Context `{!Config Env, !AbslStatus Status,
          !Message RequestT, !Message ResponseT}.

Local Abbreviation M := (M RequestContext Env RequestT ResponseT).

(** The user-defined handler function, a [std::function] returning
    [absl::Status] from a context pointer, a pointer to the [const]
    request and a pointer to the response.  The request is [const]: the
    function reads it.  The response is an out-parameter: the function
    receives the caller's container and leaves its new contents.
    Everything else the function reads or changes is in [Env]. *)
Definition HandlerFn : Type :=
  RequestContext → RequestT → ResponseT → Env → (Status * ResponseT) * Env.

Record t := {
  base : GRPCHandlerBase;
  fn_ : HandlerFn;
}.

(** [UnaryGRPCHandler(service_name, method_name, fn)] *)
Definition new (service_name method_name : string) (fn : HandlerFn) : t :=
  {| base := new_GRPCHandlerBase service_name method_name; fn_ := fn |}.

(** The call [fn_(ctx, request, response)]. *)
Definition invoke (fn : HandlerFn) (ctx : RequestContext)
    (request : RequestT) (response : ResponseT) : M (Status * ResponseT) :=
  λ w, let '(out, e) := fn ctx request response (env w) in
       (out, {| env := e; trace := trace w ++ [Invoked ctx request] |}).

(** [absl::Status Run(RequestContext* ctx, const RequestT* request,
    ResponseT* response)].  The result pairs the returned status with the
    contents of [*response] on return. *)
Definition Run (h : t) (ctx : RequestContext) (request : RequestT)
    (response : ResponseT) : M (Status * ResponseT) :=
  enabled ← should_log_requests;
  (if enabled : bool
   then LOG_INFO (request_record (base h) request) else mret ());;
  '(status, response) ← invoke (fn_ h) ctx request response;
  enabled ← should_log_requests;
  (if enabled : bool
   then LOG_INFO (response_record (base h) response status) else mret ());;
  mret (status, response).
End Unary.
Arguments HandlerFn : clear implicits.
Arguments t : clear implicits.

#[global] Instance handler {RequestContext Env Status RequestT ResponseT}
: GRPCHandler (t RequestContext Env Status RequestT ResponseT) := base.
End UnaryGRPCHandler.

(** ** ServerStreamingGRPCHandler *)

Module ServerStreamingGRPCHandler.
Section Streaming.
Context {RequestContext Env Status RequestT ResponseT : Type}.
Context `{!Config Env, !AbslStatus Status,
          !Message RequestT, !Message ResponseT}.

Local Abbreviation M := (M RequestContext Env RequestT ResponseT).
Local Abbreviation ServerStream := (ServerStream Env ResponseT).

(** What a user-defined streaming handler does once it has its context
    and request: it calls [Send] on the stream it was given, takes steps
    of its own that read and change [Env], and returns a status.  [Send]
    returns [void], so nothing flows back from a [Send] except through
    [Env]. *)
Inductive Body :=
| Return (status : Status)
| SendThen (msg : ResponseT) (rest : Body)
| Step (effect : Env → Env) (next : Env → Body).

(** The user-defined handler function.  Its first two arguments are the
    context and the [const] request; its third, the pointer to the
    [ServerStream], is the stream [perform] runs the body against. *)
Definition HandlerFn : Type := RequestContext → RequestT → Body.

Record t := {
  base : GRPCHandlerBase;
  fn_ : HandlerFn;
}.

(** [ServerStreamingGRPCHandler(service_name, method_name, fn)] *)
Definition new (service_name method_name : string) (fn : HandlerFn) : t :=
  {| base := new_GRPCHandlerBase service_name method_name; fn_ := fn |}.

(** Running a handler body against the stream it was handed. *)
Fixpoint perform (body : Body) (stream : ServerStream) : M Status :=
  match body with
  | Return status => mret status
  | SendThen msg rest => Send stream msg;; perform rest stream
  | Step effect next =>
      λ w, let e := effect (env w) in
           perform (next e) stream {| env := e; trace := trace w |}
  end.

(** The call [fn_(ctx, request, &stream)]. *)
Definition invoke (fn : HandlerFn) (ctx : RequestContext)
    (request : RequestT) (stream : ServerStream) : M Status :=
  λ w, perform (fn ctx request) stream (observe (Invoked ctx request) w).

(** [absl::Status Run(RequestContext* ctx, const RequestT* request,
    grpc::ServerWriterInterface<ResponseT>* writer)] *)
Definition Run (h : t) (ctx : RequestContext) (request : RequestT)
    (writer : ServerWriterInterface Env ResponseT) : M Status :=
  enabled ← should_log_requests;
  (if enabled : bool
   then LOG_INFO (request_record (base h) request) else mret ());;
  let stream := {| writer_ := writer |} in
  status ← invoke (fn_ h) ctx request stream;
  enabled ← should_log_requests;
  (if enabled : bool
   then LOG_INFO (completion_record (base h) status) else mret ());;
  mret status.

(** *** What a body does, read off the body itself *)

(** The messages a body passes to [Send], in call order, when it starts
    in environment [e] and every [Send] reaches [writer]. *)
Fixpoint sent (writer : ServerWriterInterface Env ResponseT) (body : Body)
    (e : Env) : list ResponseT :=
  match body with
  | Return _ => []
  | SendThen msg rest => msg :: sent writer rest (Write writer msg e).2
  | Step effect next => sent writer (next (effect e)) (effect e)
  end.

(** The status a body returns. *)
Fixpoint returned (writer : ServerWriterInterface Env ResponseT)
    (body : Body) (e : Env) : Status :=
  match body with
  | Return status => status
  | SendThen msg rest => returned writer rest (Write writer msg e).2
  | Step effect next => returned writer (next (effect e)) (effect e)
  end.

(** The environment a body leaves behind. *)
Fixpoint left_env (writer : ServerWriterInterface Env ResponseT)
    (body : Body) (e : Env) : Env :=
  match body with
  | Return _ => e
  | SendThen msg rest => left_env writer rest (Write writer msg e).2
  | Step effect next => left_env writer (next (effect e)) (effect e)
  end.

(** Verbose logging is on at every [Send] the body makes. *)
Fixpoint logging_at_sends (writer : ServerWriterInterface Env ResponseT)
    (body : Body) (e : Env) : bool :=
  match body with
  | Return _ => true
  | SendThen msg rest =>
      log_requests e && logging_at_sends writer rest (Write writer msg e).2
  | Step effect next => logging_at_sends writer (next (effect e)) (effect e)
  end.

(** The events a body causes through its stream, in order: for each
    [Send], the send record if the flag is on at that moment, then the
    write. *)
Fixpoint events (writer : ServerWriterInterface Env ResponseT)
    (body : Body) (e : Env)
  : list (Event RequestContext RequestT ResponseT) :=
  match body with
  | Return _ => []
  | SendThen msg rest =>
      (if log_requests e then [LogInfo (send_record msg)] else [])
      ++ Wrote msg (Write writer msg e).1
      :: events writer rest (Write writer msg e).2
  | Step effect next => events writer (next (effect e)) (effect e)
  end.

(** The messages a body passes to [Send] while verbose logging is on. *)
Fixpoint logged_messages (writer : ServerWriterInterface Env ResponseT)
    (body : Body) (e : Env) : list ResponseT :=
  match body with
  | Return _ => []
  | SendThen msg rest =>
      (if log_requests e then [msg] else [])
      ++ logged_messages writer rest (Write writer msg e).2
  | Step effect next => logged_messages writer (next (effect e)) (effect e)
  end.
End Streaming.
Arguments Body : clear implicits.
Arguments HandlerFn : clear implicits.
Arguments t : clear implicits.

#[global] Instance handler {RequestContext Env Status RequestT ResponseT}
: GRPCHandler (t RequestContext Env Status RequestT ResponseT) := base.
End ServerStreamingGRPCHandler.

(** ** The handler registry: HandlerRegisterer and GetHandler *)

(** The key a handler is filed under. *)
Definition MethodKey : Type := string * string.

Section Registry.
Context {H : Type} `{!GRPCHandler H}.

Definition key_of (handler : H) : MethodKey :=
  (service_name (upcast handler), method_name (upcast handler)).

(** The outcome of a registration during static initialisation. *)
Inductive Registration :=
| Registered (registry : gmap MethodKey H)
| StartupFatal (key : MethodKey).

(** Modelled from the spec: the body of the delegated constructor
    [HandlerRegisterer(std::unique_ptr<GRPCHandlerBase>)], which the header
    only declares.  The spec's [Register] inserts the envelope under its
    MethodKey and fails, fatally for start-up, if the key already exists. *)
Definition HandlerRegisterer (handler : H) (registry : gmap MethodKey H)
  : Registration :=
  match registry !! key_of handler with
  | Some _ => StartupFatal (key_of handler)
  | None => Registered (<[key_of handler := handler]> registry)
  end.

(** Modelled from the spec: the body of [GetHandler], which the header
    only declares (with the comment that it returns [nullptr] if no such
    handler could be found).  The spec's [Lookup] is a pure read returning
    the registered envelope or the absent signal; [None] is that signal. *)
Definition GetHandler (service_name method_name : string)
    (registry : gmap MethodKey H) : option H :=
  registry !! (service_name, method_name).

(** The header declares [GetHandler] with the raw pointer type
    [GRPCHandlerBase*] and the comment [Returns nullptr if no such handler
    could be found].  An [option H] stands for that pointer: [Some h] is
    the address of the registered handler [h], and [nullptr] is the null
    pointer, a value of the same pointer type as a hit. *)
Definition nullptr : option H := None.

(** The [REGISTER_GRPC_HANDLER] statics of a program, run one after the
    other; the first fatal registration stops start-up. *)
Fixpoint register_all (handlers : list H) (registry : gmap MethodKey H)
  : Registration :=
  match handlers with
  | [] => Registered registry
  | handler :: rest =>
      match HandlerRegisterer handler registry with
      | Registered registry' => register_all rest registry'
      | StartupFatal key => StartupFatal key
      end
  end.

Definition static_initialization (handlers : list H) : Registration :=
  register_all handlers ∅.
End Registry.
Arguments Registration : clear implicits.

(** *** The two registration constructors *)

Section Envelope.
Context {RequestContext Env Status : Type}.

(** [std::unique_ptr<GRPCHandlerBase>]: an owned handler of either derived
    class, for whatever message types it was instantiated with. *)
Inductive Envelope :=
| UnaryEnvelope {RequestT ResponseT : Type}
    (h : UnaryGRPCHandler.t RequestContext Env Status RequestT ResponseT)
| ServerStreamingEnvelope {RequestT ResponseT : Type}
    (h : ServerStreamingGRPCHandler.t RequestContext Env Status
           RequestT ResponseT).

#[export] Instance Envelope_handler : GRPCHandler Envelope :=
  λ envelope,
    match envelope with
    | UnaryEnvelope h => UnaryGRPCHandler.base h
    | ServerStreamingEnvelope h => ServerStreamingGRPCHandler.base h
    end.

(** Constructor for unary handler registration: wraps the function in a
    [UnaryGRPCHandler] and delegates. *)
Definition HandlerRegisterer_unary {RequestT ResponseT : Type}
    (service_name method_name : string)
    (fn : UnaryGRPCHandler.HandlerFn RequestContext Env Status
            RequestT ResponseT)
    (registry : gmap MethodKey Envelope) : Registration Envelope :=
  HandlerRegisterer
    (UnaryEnvelope (UnaryGRPCHandler.new service_name method_name fn))
    registry.

(** Constructor for server streaming handler registration: wraps the
    function in a [ServerStreamingGRPCHandler] and delegates. *)
Definition HandlerRegisterer_server_streaming {RequestT ResponseT : Type}
    (service_name method_name : string)
    (fn : ServerStreamingGRPCHandler.HandlerFn RequestContext Env Status
            RequestT ResponseT)
    (registry : gmap MethodKey Envelope) : Registration Envelope :=
  HandlerRegisterer
    (ServerStreamingEnvelope
       (ServerStreamingGRPCHandler.new service_name method_name fn))
    registry.
End Envelope.
Arguments Envelope : clear implicits.

(** ** The REGISTER_GRPC_HANDLER macro *)

(** What one use of the macro declares: a static [HandlerRegisterer]
    variable and the three arguments of its constructor. *)
Record StaticRegisterer := {
  variable_name : string;
  service_name_arg : string;
  method_name_arg : string;
  fn_arg : string;
}.

(** [REGISTER_GRPC_HANDLER(Service, Method)] expands to
    [static HandlerRegisterer Service##_##Method##_##Registerer(#Service,
    #Method, Method);]: the variable name is pasted from the two
    identifiers and the names are the identifiers as string literals.
    [fn_arg] is the third argument as the macro body writes it, the token
    [Method]; unlike the pasted and stringified uses, that token is
    macro-expanded again before the compiler reads it, which this record
    does not follow. *)
Definition REGISTER_GRPC_HANDLER (Service Method : string)
  : StaticRegisterer :=
  {| variable_name := Service +:+ "_" +:+ Method +:+ "_" +:+ "Registerer";
     service_name_arg := Service;
     method_name_arg := Method;
     fn_arg := Method |}.

(** ** Reading log records back *)

(** The characters that end the service name and the method name in a
    record's tag. *)
Definition dot : Ascii.ascii := Ascii.ascii_of_nat 46.
Definition closing_bracket : Ascii.ascii := Ascii.ascii_of_nat 93.

(** The character [c] does not occur in [s]. *)
Fixpoint free_of (c : Ascii.ascii) (s : string) : bool :=
  match s with
  | EmptyString => true
  | String c' s' => negb (Ascii.eqb c c') && free_of c s'
  end.

(** ** A small concrete instance

    One transport, one status type and string messages, used to run the
    definitions above on concrete calls. *)

Module Demo.
(** The process state: the logging flag, how many more writes the peer
    will take, and how many times the demo handlers have run. *)
Record process := {
  verbose : bool;
  credit : nat;
  runs : nat;
}.

#[global] Instance env_config : Config process := verbose.

Inductive status := OkStatus | NotFound (what : string).

#[global] Instance status_absl : AbslStatus status := {|
  ok s := match s with OkStatus => true | NotFound _ => false end;
  ToString s :=
    match s with
    | OkStatus => "OK"
    | NotFound what => "NOT_FOUND: " +:+ what
    end;
|}.

#[global] Instance string_message : Message string := id.

(** A writer that takes a message while the peer has credit left and
    reports failure afterwards. *)
Definition peer : ServerWriterInterface process string := {|
  Write msg e :=
    match credit e with
    | O => (false, e)
    | S n => (true, {| verbose := verbose e; credit := n; runs := runs e |})
    end;
|}.

Definition ran (e : process) : process :=
  {| verbose := verbose e; credit := credit e; runs := S (runs e) |}.

Definition set_verbose (b : bool) (e : process) : process :=
  {| verbose := b; credit := credit e; runs := runs e |}.

(** The spec's scenario handler: succeeds and names the session. *)
Definition GetSession : UnaryGRPCHandler.HandlerFn () process status string string :=
  λ _ _ _ e, ((OkStatus, "sessions/1"), ran e).

(** A unary handler that fails and leaves the response as it found it. *)
Definition Missing : UnaryGRPCHandler.HandlerFn () process status string string :=
  λ _ request response e, ((NotFound request, response), ran e).

(** A unary handler that switches verbose logging while it runs. *)
Definition Toggle : UnaryGRPCHandler.HandlerFn () process status string string :=
  λ _ _ response e, ((OkStatus, response), set_verbose (negb (verbose e)) (ran e)).

(** A streaming handler that sends two rows and succeeds. *)
Definition TwoRows : ServerStreamingGRPCHandler.HandlerFn () process status string string :=
  λ _ _, ServerStreamingGRPCHandler.Step ran (λ _,
         ServerStreamingGRPCHandler.SendThen "row1"
           (ServerStreamingGRPCHandler.SendThen "row2"
              (ServerStreamingGRPCHandler.Return OkStatus))).

(** A streaming handler that sends nothing and fails. *)
Definition NoRows : ServerStreamingGRPCHandler.HandlerFn () process status string string :=
  λ _ request, ServerStreamingGRPCHandler.Step ran (λ _,
         ServerStreamingGRPCHandler.Return (NotFound request)).

(** The handlers as [REGISTER_GRPC_HANDLER] would wrap them. *)
Definition get_session :=
  UnaryGRPCHandler.new "Spanner" "GetSession" GetSession.
Definition missing := UnaryGRPCHandler.new "Spanner" "GetSession" Missing.
Definition two_rows :=
  ServerStreamingGRPCHandler.new "Spanner" "Read" TwoRows.
Definition no_rows := ServerStreamingGRPCHandler.new "Spanner" "Read" NoRows.

(** A world whose peer takes no more writes. *)
Definition starved : World () process string string :=
  {| env := {| verbose := true; credit := 0; runs := 0 |}; trace := [] |}.
Definition quiet : World () process string string :=
  {| env := {| verbose := false; credit := 1; runs := 0 |}; trace := [] |}.
Definition loud : World () process string string :=
  {| env := {| verbose := true; credit := 1; runs := 0 |}; trace := [] |}.
End Demo.

(** * Properties *)

(** ** Traces *)

Section TraceFacts.
Context {RequestContext Env RequestT ResponseT : Type}.

Local Abbreviation Event := (Event RequestContext RequestT ResponseT).

Lemma records_app (t1 t2 : list Event) :
  records (t1 ++ t2) = records t1 ++ records t2.
Proof. apply omap_app. Qed.

Lemma calls_app (t1 t2 : list Event) :
  calls (t1 ++ t2) = calls t1 ++ calls t2.
Proof. apply omap_app. Qed.

Lemma writes_app (t1 t2 : list Event) :
  writes (t1 ++ t2) = writes t1 ++ writes t2.
Proof. apply omap_app. Qed.
End TraceFacts.

(** ** GRPCHandlerBase *)

(** C10.  Construction of a handler base checks nothing: for every pair of
    strings the constructor yields an object whose [service_name()] and
    [method_name()] are the strings supplied, the two derived wrappers pass
    their names through to it, and the pair of empty strings is accepted
    like any other. *)
Theorem GRPCHandlerBase_accepts_any_names (service method : string) :
  service_name (new_GRPCHandlerBase service method) = service
  ∧ method_name (new_GRPCHandlerBase service method) = method
  ∧ (∀ RequestContext Env Status RequestT ResponseT
       (fn : UnaryGRPCHandler.HandlerFn RequestContext Env Status RequestT ResponseT),
       key_of (UnaryGRPCHandler.new service method fn) = (service, method))
  ∧ (∀ RequestContext Env Status RequestT ResponseT
       (fn : ServerStreamingGRPCHandler.HandlerFn RequestContext Env Status RequestT ResponseT),
       key_of (ServerStreamingGRPCHandler.new service method fn) = (service, method))
  ∧ key_of (new_GRPCHandlerBase "" "") = ("", "").
Proof. repeat split. Qed.

(** ** UnaryGRPCHandler::Run *)

Section UnaryRun.
Context {RequestContext Env Status RequestT ResponseT : Type}.
Context `{!Config Env, !AbslStatus Status,
          !Message RequestT, !Message ResponseT}.

Local Abbreviation Handler :=
  (UnaryGRPCHandler.t RequestContext Env Status RequestT ResponseT).
Local Abbreviation World := (World RequestContext Env RequestT ResponseT).

Import UnaryGRPCHandler.

(** [Run] in one equation: the wrapped function is applied once to the
    arguments of [Run]; each of the two records is appended when the flag
    is set at the moment it is queried. *)
Lemma unary_Run_unfold (h : Handler) ctx request response (w : World) :
  Run h ctx request response w =
    let r := fn_ h ctx request response (env w) in
    (r.1,
     {| env := r.2;
        trace :=
          trace w
          ++ (if log_requests (env w)
              then [LogInfo (request_record (base h) request)] else [])
          ++ [Invoked ctx request]
          ++ (if log_requests r.2
              then [LogInfo (response_record (base h) r.1.2 r.1.1)]
              else []) |}).
Proof.
  unfold Run, invoke, should_log_requests, LOG_INFO, observe,
    mbind, M_bind, mret, M_ret; simpl.
  destruct (log_requests (env w)); simpl;
    destruct (fn_ h ctx request response _) as [[status response'] e];
    simpl; destruct (log_requests e); simpl;
    rewrite <- ?app_assoc; simpl; rewrite ?app_nil_r; reflexivity.
Qed.

(** C4.  With verbose logging on at both queries, a unary [Run] adds
    exactly the request record, the entry into the wrapped function and
    the response record to the trace, in that order, whatever status the
    wrapped function returns. *)
Theorem unary_Run_logging_on (h : Handler) ctx request response (w : World)
    status response' e' :
  fn_ h ctx request response (env w) = ((status, response'), e') →
  log_requests (env w) = true →
  log_requests e' = true →
  Run h ctx request response w =
    ((status, response'),
     {| env := e';
        trace :=
          trace w
          ++ [LogInfo (request_record (base h) request);
              Invoked ctx request;
              LogInfo (response_record (base h) response' status)] |}).
Proof.
  intros Hfn Hbefore Hafter. rewrite unary_Run_unfold, Hfn. simpl.
  rewrite Hbefore, Hafter. reflexivity.
Qed.

(** C5.  With verbose logging off at both queries, a unary [Run] adds no
    log record and returns the status and response of the wrapped
    function as they are. *)
Theorem unary_Run_logging_off (h : Handler) ctx request response (w : World) :
  log_requests (env w) = false →
  log_requests (fn_ h ctx request response (env w)).2 = false →
  (Run h ctx request response w).1 = (fn_ h ctx request response (env w)).1
  ∧ env (Run h ctx request response w).2
    = (fn_ h ctx request response (env w)).2
  ∧ trace (Run h ctx request response w).2
    = trace w ++ [Invoked ctx request]
  ∧ records (trace (Run h ctx request response w).2) = records (trace w).
Proof.
  intros Hbefore Hafter. rewrite unary_Run_unfold. simpl.
  rewrite Hbefore, Hafter. simpl.
  repeat split. rewrite records_app. apply app_nil_r.
Qed.

(** C8.  A unary [Run] enters the wrapped function exactly once, with
    the request it was given; its status, response and environment are
    those of that one application; and it adds at most two log records,
    whatever the logging flag does. *)
Theorem unary_Run_frame (h : Handler) ctx request response (w : World) :
  (Run h ctx request response w).1 = (fn_ h ctx request response (env w)).1
  ∧ env (Run h ctx request response w).2
    = (fn_ h ctx request response (env w)).2
  ∧ calls (trace (Run h ctx request response w).2)
    = calls (trace w) ++ [(ctx, request)]
  ∧ writes (trace (Run h ctx request response w).2) = writes (trace w)
  ∧ ∃ added,
      records (trace (Run h ctx request response w).2)
      = records (trace w) ++ added
      ∧ length added ≤ 2.
Proof.
  rewrite unary_Run_unfold. simpl.
  destruct (fn_ h ctx request response (env w)) as [[status response'] e'].
  simpl. rewrite !calls_app, !writes_app, !records_app.
  split; [reflexivity|]. split; [reflexivity|].
  destruct (log_requests (env w)), (log_requests e');
    (split; [reflexivity|]); (split; [exact (app_nil_r (writes (trace w)))|]);
    (eexists; split; [reflexivity|compute; lia]).
Qed.

(** C9.  The flag is read twice, once in the starting environment and
    once in the environment the wrapped function leaves.  The records a
    unary [Run] adds are the request record if the first reading is true
    followed by the response record if the second is; so exactly one
    record is added precisely when the two readings differ, and none or
    two when they agree. *)
Theorem unary_Run_flag_read_twice (h : Handler) ctx request response (w : World) :
  let r := fn_ h ctx request response (env w) in
  let added :=
    (if log_requests (env w)
     then [request_record (base h) request] else [])
    ++ (if log_requests r.2
        then [response_record (base h) r.1.2 r.1.1] else []) in
  records (trace (Run h ctx request response w).2)
    = records (trace w) ++ added
  ∧ (length added = 1 ↔ log_requests (env w) ≠ log_requests r.2)
  ∧ (length added = 0 ∨ length added = 2
     ↔ log_requests (env w) = log_requests r.2).
Proof.
  intros r added. subst added r. rewrite unary_Run_unfold. simpl.
  destruct (fn_ h ctx request response (env w)) as [[status response'] e'].
  simpl. rewrite !records_app.
  destruct (log_requests (env w)), (log_requests e');
    (split; [reflexivity|]); simpl; split; split;
    try congruence; try lia; intuition (congruence || lia).
Qed.
End UnaryRun.

(** ** ServerStream::Send *)

Section SendFacts.
Context {RequestContext Env RequestT ResponseT : Type}.
Context `{!Config Env, !Message ResponseT}.

Local Abbreviation World := (World RequestContext Env RequestT ResponseT).

(** [Send] in one equation. *)
Lemma Send_unfold (stream : ServerStream Env ResponseT)
    (msg : ResponseT) (w : World) :
  Send stream msg w =
    ((),
     {| env := (Write (writer_ stream) msg (env w)).2;
        trace :=
          trace w
          ++ (if log_requests (env w)
              then [LogInfo (send_record msg)] else [])
          ++ [Wrote msg (Write (writer_ stream) msg (env w)).1] |}).
Proof.
  unfold Send, call_Write, should_log_requests, LOG_INFO, observe,
    mbind, M_bind, mret, M_ret; simpl.
  destruct (log_requests (env w)); simpl;
    destruct (Write (writer_ stream) msg (env w)) as [accepted e]; simpl;
    rewrite <- ?app_assoc; reflexivity.
Qed.

(** C2, as the code has it.  [Send] returns [void]: it adds the send
    record when the flag is on, calls [Write] exactly once with the
    message, and returns the unit value whatever [Write] answered, so what
    [Send] returns is the same in every world.  The answer of [Write]
    stays with the transport. *)
Theorem Send_returns_nothing (stream : ServerStream Env ResponseT)
    (msg : ResponseT) (w : World) :
  (Send stream msg w).1 = ()
  ∧ (∀ w' : World, (Send stream msg w').1 = (Send stream msg w).1)
  ∧ env (Send stream msg w).2 = (Write (writer_ stream) msg (env w)).2
  ∧ writes (trace (Send stream msg w).2)
    = writes (trace w) ++ [(msg, (Write (writer_ stream) msg (env w)).1)]
  ∧ records (trace (Send stream msg w).2)
    = records (trace w)
      ++ (if log_requests (env w) then [send_record msg] else [])
  ∧ calls (trace (Send stream msg w).2) = calls (trace w).
Proof.
  split; [by destruct (Send stream msg w) as [[] ?]|].
  split; [intros w'; by rewrite !Send_unfold|].
  rewrite Send_unfold. cbn [fst snd env trace].
  rewrite !writes_app, !records_app, !calls_app.
  split; [reflexivity|].
  destruct (log_requests (env w)); repeat split;
    exact (eq_sym (app_nil_r _)) || exact (app_nil_r _) || reflexivity.
Qed.
End SendFacts.

(** C2, as the claim has it, fails.  With the demo peer the write of
    ["row"] fails in the world without credit and succeeds in the world
    with credit, and [Send] returns the same value in both: no reading of
    what [Send] returns tells the failed write from the successful one. *)
Lemma Send_does_not_surface_write_failure :
  (Write Demo.peer "row" (env Demo.starved)).1 = false
  ∧ (Write Demo.peer "row" (env Demo.loud)).1 = true
  ∧ (Send {| writer_ := Demo.peer |} "row" Demo.starved).1
    = (Send {| writer_ := Demo.peer |} "row" Demo.loud).1
  ∧ ¬ ∃ failed : () → bool,
        failed (Send {| writer_ := Demo.peer |} "row" Demo.starved).1 = true
        ∧ failed (Send {| writer_ := Demo.peer |} "row" Demo.loud).1 = false.
Proof.
  repeat split. intros [failed [Hstarved Hloud]].
  simpl in Hstarved, Hloud. congruence.
Qed.

(** ** ServerStreamingGRPCHandler::Run *)

Section StreamingRun.
Context {RequestContext Env Status RequestT ResponseT : Type}.
Context `{!Config Env, !AbslStatus Status,
          !Message RequestT, !Message ResponseT}.

Import ServerStreamingGRPCHandler.

Local Abbreviation Handler :=
  (ServerStreamingGRPCHandler.t RequestContext Env Status RequestT ResponseT).
Local Abbreviation Body :=
  (ServerStreamingGRPCHandler.Body Env Status ResponseT).
Local Abbreviation World := (World RequestContext Env RequestT ResponseT).
Local Abbreviation events :=
  (ServerStreamingGRPCHandler.events (RequestContext := RequestContext)
     (RequestT := RequestT)).

Variable writer : ServerWriterInterface Env ResponseT.

(** Running a body appends exactly its [events] and ends in the status
    and environment read off the body. *)
Lemma perform_unfold (body : Body) (w : World) :
  perform body {| writer_ := writer |} w =
    (returned writer body (env w),
     {| env := left_env writer body (env w);
        trace := trace w ++ events writer body (env w) |}).
Proof.
  revert w. induction body as [status|msg rest IH|effect next IH]; intros w.
  - simpl. unfold mret, M_ret. rewrite app_nil_r. by destruct w.
  - simpl. unfold mbind, M_bind. rewrite Send_unfold. simpl.
    rewrite IH. simpl. do 2 f_equal.
    rewrite <- !app_assoc. reflexivity.
  - simpl. rewrite IH. reflexivity.
Qed.

Lemma events_calls (body : Body) (e : Env) :
  calls (events writer body e) = [].
Proof.
  revert e. induction body as [status|msg rest IH|effect next IH];
    intros e; simpl; [reflexivity| |apply IH].
  rewrite calls_app. destruct (log_requests e); apply IH.
Qed.

Lemma events_writes (body : Body) (e : Env) :
  (writes (events writer body e)).*1 = sent writer body e.
Proof.
  revert e. induction body as [status|msg rest IH|effect next IH];
    intros e; simpl; [reflexivity| |apply IH].
  rewrite writes_app, fmap_app.
  destruct (log_requests e); unfold writes; simpl; f_equal; apply IH.
Qed.

Lemma events_records (body : Body) (e : Env) :
  logging_at_sends writer body e = true →
  records (events writer body e) = send_record <$> sent writer body e.
Proof.
  revert e. induction body as [status|msg rest IH|effect next IH];
    intros e; simpl; [reflexivity| |apply IH].
  intros [Hnow Hrest]%andb_true_iff. rewrite Hnow.
  unfold records; simpl. f_equal. by apply IH.
Qed.

Lemma events_no_send (body : Body) (e : Env) :
  sent writer body e = [] → events writer body e = [].
Proof.
  revert e. induction body as [status|msg rest IH|effect next IH];
    intros e; simpl; [reflexivity|discriminate|apply IH].
Qed.

(** [Run] in one equation. *)
Lemma streaming_Run_unfold (h : Handler) ctx request (w : World) :
  Run h ctx request writer w =
    let body := fn_ h ctx request in
    let status := returned writer body (env w) in
    let e' := left_env writer body (env w) in
    (status,
     {| env := e';
        trace :=
          trace w
          ++ (if log_requests (env w)
              then [LogInfo (request_record (base h) request)] else [])
          ++ [Invoked ctx request]
          ++ events writer body (env w)
          ++ (if log_requests e'
              then [LogInfo (completion_record (base h) status)]
              else []) |}).
Proof.
  unfold Run, invoke, should_log_requests, LOG_INFO, observe,
    mbind, M_bind, mret, M_ret; simpl.
  destruct (log_requests (env w)); simpl; rewrite perform_unfold; simpl;
    destruct (log_requests (left_env writer (fn_ h ctx request) (env w)));
    simpl; rewrite <- ?app_assoc; simpl; rewrite ?app_nil_r; reflexivity.
Qed.

(** C6.  With verbose logging on at every query, a streaming [Run] whose
    handler passes the messages [sent] to the sink hands exactly those
    messages to the transport writer, in that order, and adds exactly the
    request record, one send record per message in the same order, and
    the completion record: N + 2 records for N messages. *)
Theorem streaming_Run_logging_on (h : Handler) ctx request (w : World) :
  let body := fn_ h ctx request in
  let msgs := sent writer body (env w) in
  log_requests (env w) = true →
  logging_at_sends writer body (env w) = true →
  log_requests (left_env writer body (env w)) = true →
  (Run h ctx request writer w).1 = returned writer body (env w)
  ∧ (writes (trace (Run h ctx request writer w).2)).*1
    = (writes (trace w)).*1 ++ msgs
  ∧ records (trace (Run h ctx request writer w).2)
    = records (trace w)
      ++ [request_record (base h) request]
      ++ (send_record <$> msgs)
      ++ [completion_record (base h) (returned writer body (env w))]
  ∧ length (records (trace (Run h ctx request writer w).2))
    = length (records (trace w)) + (length msgs + 2).
Proof.
  intros body msgs Hfirst Hsends Hlast. subst body msgs.
  rewrite streaming_Run_unfold. cbv zeta. cbn [fst snd env trace].
  rewrite Hfirst, Hlast.
  rewrite !writes_app, !records_app, !fmap_app, events_writes.
  rewrite (events_records _ _ Hsends).
  split; [reflexivity|]. split.
  { exact (f_equal _ (app_nil_r _)). }
  split; [reflexivity|].
  rewrite !length_app, length_fmap. unfold records. simpl. lia.
Qed.

(** C7.  A streaming [Run] whose handler passes no message to the sink
    hands nothing to the writer and adds no send record: the only
    records are the request and completion records, each if the flag is
    on when it is queried.  [Run] returns the handler's status as it is;
    a failure stays a failure. *)
Theorem streaming_Run_no_messages (h : Handler) ctx request (w : World) :
  let body := fn_ h ctx request in
  let status := returned writer body (env w) in
  sent writer body (env w) = [] →
  (Run h ctx request writer w).1 = status
  ∧ (ok status = false → ok (Run h ctx request writer w).1 = false)
  ∧ writes (trace (Run h ctx request writer w).2) = writes (trace w)
  ∧ records (trace (Run h ctx request writer w).2)
    = records (trace w)
      ++ (if log_requests (env w)
          then [request_record (base h) request] else [])
      ++ (if log_requests (left_env writer body (env w))
          then [completion_record (base h) status] else []).
Proof.
  intros body status Hnone. subst body status.
  rewrite streaming_Run_unfold. cbv zeta. cbn [fst snd env trace].
  rewrite (events_no_send _ _ Hnone).
  rewrite !writes_app, !records_app.
  split; [reflexivity|]. split; [done|].
  destruct (log_requests (env w)),
    (log_requests (left_env writer (fn_ h ctx request) (env w)));
    (split; [exact (app_nil_r (writes (trace w)))|reflexivity]).
Qed.
End StreamingRun.

(** ** The registry *)

Section RegistryFacts.
Context {H : Type} `{!GRPCHandler H}.

Implicit Types (registry : gmap MethodKey H) (key : MethodKey).

Lemma HandlerRegisterer_fresh (handler : H) registry :
  registry !! key_of handler = None →
  HandlerRegisterer handler registry
  = Registered (<[key_of handler := handler]> registry).
Proof. intros Hfree. unfold HandlerRegisterer. by rewrite Hfree. Qed.

Lemma HandlerRegisterer_Registered (handler : H) registry registry' :
  HandlerRegisterer handler registry = Registered registry' →
  registry !! key_of handler = None
  ∧ registry' = <[key_of handler := handler]> registry.
Proof.
  unfold HandlerRegisterer.
  destruct (registry !! key_of handler) eqn:Hlookup; [done|].
  intros [= <-]. done.
Qed.

(** After a start-up that went through, a key is absent exactly when it
    was absent before and no registered handler carries it. *)
Lemma register_all_absent (handlers : list H) registry registry' key :
  register_all handlers registry = Registered registry' →
  registry' !! key = None
  ↔ registry !! key = None ∧ key ∉ key_of <$> handlers.
Proof.
  revert registry. induction handlers as [|handler rest IH];
    intros registry; simpl.
  - intros [= <-]. split; [|by intros [? _]].
    intros Habsent. split; [done|]. apply not_elem_of_nil.
  - destruct (HandlerRegisterer handler registry) as [registry1|]
      eqn:Hfirst; [|done].
    apply HandlerRegisterer_Registered in Hfirst as [_ ->].
    intros Hrest. rewrite (IH _ Hrest), lookup_insert_None, not_elem_of_cons.
    intuition congruence.
Qed.

(** A registered handler stays through the rest of start-up, and the
    rest of a start-up that went through did not reuse its key. *)
Lemma register_all_keeps (handlers : list H) registry registry' key
    (handler : H) :
  register_all handlers registry = Registered registry' →
  registry !! key = Some handler →
  registry' !! key = Some handler ∧ key ∉ key_of <$> handlers.
Proof.
  revert registry. induction handlers as [|next rest IH];
    intros registry; simpl.
  - intros [= <-] Hthere. split; [done|]. apply not_elem_of_nil.
  - destruct (HandlerRegisterer next registry) as [registry1|]
      eqn:Hnext; [|done].
    apply HandlerRegisterer_Registered in Hnext as [Hfree ->].
    intros Hrest Hthere.
    assert (key_of next ≠ key) as Hne by congruence.
    destruct (IH _ Hrest) as [Hkept Hunused];
      [by rewrite lookup_insert_ne|].
    split; [done|]. apply not_elem_of_cons. done.
Qed.

(** A start-up that went through registered no key twice. *)
Lemma register_all_NoDup (handlers : list H) registry registry' :
  register_all handlers registry = Registered registry' →
  NoDup (key_of <$> handlers).
Proof.
  revert registry. induction handlers as [|handler rest IH];
    intros registry; simpl; [intros _; constructor|].
  destruct (HandlerRegisterer handler registry) as [registry1|]
    eqn:Hfirst; [|done].
  apply HandlerRegisterer_Registered in Hfirst as [_ ->].
  intros Hrest. constructor; [|by eapply IH].
  eapply register_all_keeps; [exact Hrest|apply lookup_insert_eq].
Qed.

(** C1.  Once a handler is registered, registering another handler under
    the same (service, method) key fails, with the start-up failure that
    names the key, and [GetHandler] for that key still returns the first
    handler. *)
Theorem duplicate_registration_fails (first second : H) registry registry' :
  HandlerRegisterer first registry = Registered registry' →
  key_of second = key_of first →
  HandlerRegisterer second registry' = StartupFatal (key_of first)
  ∧ GetHandler (service_name (upcast first)) (method_name (upcast first))
      registry' = Some first.
Proof.
  intros [_ ->]%HandlerRegisterer_Registered Hsame.
  unfold HandlerRegisterer, GetHandler. rewrite Hsame.
  change (service_name (upcast first), method_name (upcast first))
    with (key_of first).
  split; [by rewrite lookup_insert_eq|apply lookup_insert_eq].
Qed.

(** C3, as the code has it.  After any start-up that went through,
    [GetHandler] for a (service, method) pair that no registered handler
    carries returns [nullptr], the null pointer the header documents for a
    miss, and so the address of no handler: the miss is reported through
    the returned pointer, which the caller has to test. *)
Theorem GetHandler_unregistered_returns_nullptr (handlers : list H) registry
    (service method : string) :
  static_initialization handlers = Registered registry →
  (service, method) ∉ key_of <$> handlers →
  GetHandler service method registry = nullptr
  ∧ ∀ handler, GetHandler service method registry ≠ Some handler.
Proof.
  intros Hstart Hnot.
  assert (GetHandler service method registry = nullptr) as Habsent.
  { unfold GetHandler, nullptr. eapply register_all_absent; [exact Hstart|].
    split; [apply lookup_empty|done]. }
  split; [done|]. intros handler. by rewrite Habsent.
Qed.
End RegistryFacts.

(** ** Concrete runs

    The theorems above, applied to the demo handlers. *)

Section ConcreteRuns.
Import Demo.

(** The spec's scenario: dispatching to the registered GetSession handler
    yields the populated response and a success status. *)
Example dispatch_GetSession :
  ∃ registry,
    static_initialization [get_session] = Registered registry
    ∧ (h ← GetHandler "Spanner" "GetSession" registry;
       Some (UnaryGRPCHandler.Run h () "request" "" quiet).1)
      = Some (OkStatus, "sessions/1")
    ∧ GetHandler "Spanner" "Nonexistent" registry = None.
Proof. eexists. split; [reflexivity|]. split; reflexivity. Qed.

(** A handler that switches the flag off gets its request logged and its
    response not. *)
Example toggle_logs_one_record :
  records (trace (UnaryGRPCHandler.Run
                    (UnaryGRPCHandler.new "Spanner" "GetSession" Toggle)
                    () "request" "" loud).2)
  = ["Request[Spanner.GetSession]" +:+ nl +:+ "request"].
Proof. reflexivity. Qed.

Lemma unary_Run_logging_on_witness :
  log_requests (env loud) = true
  ∧ UnaryGRPCHandler.Run get_session () "request" "" loud
    = ((OkStatus, "sessions/1"),
       {| env := ran (env loud);
          trace :=
            [LogInfo ("Request[Spanner.GetSession]" +:+ nl +:+ "request");
             Invoked () "request";
             LogInfo ("Response[Spanner.GetSession]" +:+ nl
                      +:+ "sessions/1" +:+ nl +:+ "OK")] |}).
Proof.
  split; [reflexivity|].
  exact (unary_Run_logging_on get_session () "request" "" loud
           OkStatus "sessions/1" (ran (env loud)) eq_refl eq_refl eq_refl).
Defined.

Lemma unary_Run_logging_off_witness :
  log_requests (env quiet) = false
  ∧ (UnaryGRPCHandler.Run missing () "request" "" quiet).1
    = (NotFound "request", "")
  ∧ records (trace (UnaryGRPCHandler.Run missing () "request" "" quiet).2)
    = [].
Proof.
  split; [reflexivity|].
  destruct (unary_Run_logging_off missing () "request" "" quiet)
    as (Hout & _ & _ & Hrecords); [reflexivity|reflexivity|].
  split; [exact Hout|exact Hrecords].
Defined.

Lemma streaming_Run_logging_on_witness :
  ServerStreamingGRPCHandler.logging_at_sends peer (TwoRows () "request") (env loud) = true
  ∧ (writes (trace (ServerStreamingGRPCHandler.Run two_rows () "request"
                      peer loud).2)).*1
    = ["row1"; "row2"]
  ∧ records (trace (ServerStreamingGRPCHandler.Run two_rows () "request"
                      peer loud).2)
    = ["Request[Spanner.Read]" +:+ nl +:+ "request";
       "Sending streaming response:" +:+ nl +:+ "row1";
       "Sending streaming response:" +:+ nl +:+ "row2";
       "Response[Spanner.Read]" +:+ nl +:+ "OK"].
Proof.
  split; [reflexivity|].
  destruct (streaming_Run_logging_on peer two_rows () "request" loud)
    as (_ & Hwrites & Hrecords & _); [reflexivity..|].
  split; [exact Hwrites|exact Hrecords].
Defined.

Lemma streaming_Run_no_messages_witness :
  ServerStreamingGRPCHandler.sent peer (NoRows () "request") (env loud) = []
  ∧ (ServerStreamingGRPCHandler.Run no_rows () "request" peer loud).1
    = NotFound "request"
  ∧ ok (ServerStreamingGRPCHandler.Run no_rows () "request" peer loud).1
    = false
  ∧ records (trace (ServerStreamingGRPCHandler.Run no_rows () "request"
                      peer loud).2)
    = ["Request[Spanner.Read]" +:+ nl +:+ "request";
       "Response[Spanner.Read]" +:+ nl +:+ "Error: NOT_FOUND: request"].
Proof.
  split; [reflexivity|].
  destruct (streaming_Run_no_messages peer no_rows () "request" loud)
    as (Hstatus & Hfail & _ & Hrecords); [reflexivity|].
  split; [exact Hstatus|]. split; [apply Hfail; reflexivity|exact Hrecords].
Defined.

Lemma duplicate_registration_fails_witness :
  HandlerRegisterer_unary "Spanner" "GetSession" GetSession ∅
  = Registered (<[("Spanner", "GetSession") := UnaryEnvelope get_session]> ∅)
  ∧ HandlerRegisterer_server_streaming "Spanner" "GetSession" TwoRows
      (<[("Spanner", "GetSession") := UnaryEnvelope get_session]> ∅)
    = StartupFatal ("Spanner", "GetSession")
  ∧ GetHandler "Spanner" "GetSession"
      (<[("Spanner", "GetSession") := UnaryEnvelope get_session]> ∅)
    = Some (UnaryEnvelope get_session).
Proof.
  split; [reflexivity|].
  exact (duplicate_registration_fails
           (UnaryEnvelope get_session)
           (ServerStreamingEnvelope
              (ServerStreamingGRPCHandler.new "Spanner" "GetSession" TwoRows))
           ∅ _ eq_refl eq_refl).
Defined.

Lemma GetHandler_unregistered_returns_nullptr_witness :
  static_initialization [get_session]
  = Registered (<[("Spanner", "GetSession") := get_session]> ∅)
  ∧ GetHandler "Spanner" "Nonexistent"
      (<[("Spanner", "GetSession") := get_session]> ∅)
    = nullptr
  ∧ ∀ handler,
      GetHandler "Spanner" "Nonexistent"
        (<[("Spanner", "GetSession") := get_session]> ∅)
      ≠ Some handler.
Proof.
  split; [reflexivity|].
  refine (GetHandler_unregistered_returns_nullptr [get_session] _
            "Spanner" "Nonexistent" eq_refl _).
  intros Hin. apply list_elem_of_singleton in Hin. discriminate Hin.
Defined.

(** C3, as the claim has it, fails.  The claim has a miss answered by an
    explicit not-found signal and never by a null-like value.  After the
    start-up that registers Spanner.GetSession alone, the lookup of
    Spanner.Nonexistent, which no handler carries, is answered by
    [nullptr]: the statement that a miss never yields the null pointer is
    false at this input. *)
Lemma GetHandler_miss_is_the_null_pointer :
  static_initialization [get_session]
  = Registered (<[("Spanner", "GetSession") := get_session]> ∅)
  ∧ (("Spanner", "Nonexistent") ∉ (key_of <$> [get_session]))
  ∧ GetHandler "Spanner" "Nonexistent"
      (<[("Spanner", "GetSession") := get_session]> ∅)
    = nullptr
  ∧ ¬ (∀ (handlers : list (UnaryGRPCHandler.t () process status string string))
         registry service method,
         static_initialization handlers = Registered registry →
         (service, method) ∉ key_of <$> handlers →
         GetHandler service method registry ≠ nullptr).
Proof.
  assert (("Spanner", "Nonexistent") ∉ key_of <$> [get_session]) as Hmiss.
  { intros Hin. apply list_elem_of_singleton in Hin. discriminate Hin. }
  split; [reflexivity|]. split; [exact Hmiss|]. split; [reflexivity|].
  intros Hnever.
  exact (Hnever [get_session] _ "Spanner" "Nonexistent" eq_refl Hmiss eq_refl).
Qed.
End ConcreteRuns.


(** * Further properties of the header *)

(** ** ServerStreamingGRPCHandler::Run, whatever the flag does *)

Section StreamingRunAlways.
Context {RequestContext Env Status RequestT ResponseT : Type}.
Context `{!Config Env, !AbslStatus Status,
          !Message RequestT, !Message ResponseT}.

Import ServerStreamingGRPCHandler.

Local Abbreviation Handler :=
  (ServerStreamingGRPCHandler.t RequestContext Env Status RequestT ResponseT).
Local Abbreviation Body :=
  (ServerStreamingGRPCHandler.Body Env Status ResponseT).
Local Abbreviation World := (World RequestContext Env RequestT ResponseT).
Local Abbreviation events :=
  (ServerStreamingGRPCHandler.events (RequestContext := RequestContext)
     (RequestT := RequestT)).

Variable writer : ServerWriterInterface Env ResponseT.

Lemma events_records_logged (body : Body) (e : Env) :
  records (events writer body e)
  = send_record <$> logged_messages writer body e.
Proof.
  revert e. induction body as [status|msg rest IH|effect next IH];
    intros e; simpl; [reflexivity| |apply IH].
  rewrite records_app, fmap_app, <- IH.
  by destruct (log_requests e).
Qed.

Lemma logged_messages_sublist (body : Body) (e : Env) :
  logged_messages writer body e `sublist_of` sent writer body e.
Proof.
  revert e. induction body as [status|msg rest IH|effect next IH];
    intros e; simpl; [constructor| |apply IH].
  destruct (log_requests e); simpl.
  - apply sublist_skip, IH.
  - apply sublist_cons, IH.
Qed.

Lemma events_interleaved (body : Body) (e : Env) :
  logging_at_sends writer body e = true →
  events writer body e
  = mjoin ((λ p, [LogInfo (send_record p.1); Wrote p.1 p.2])
             <$> writes (events writer body e)).
Proof.
  revert e. induction body as [status|msg rest IH|effect next IH];
    intros e; simpl; [reflexivity| |apply IH].
  intros [Hnow Hrest]%andb_true_iff. rewrite Hnow.
  unfold writes; simpl. do 2 f_equal. by apply IH.
Qed.

(** X1.  For every behaviour of the flag, a streaming [Run] returns the
    status the handler body returns, leaves the environment the body
    leaves, and enters the wrapped function exactly once, with the context
    and request it was given. *)
Theorem streaming_Run_frame (h : Handler) ctx request (w : World) :
  (Run h ctx request writer w).1 = returned writer (fn_ h ctx request) (env w)
  ∧ env (Run h ctx request writer w).2
    = left_env writer (fn_ h ctx request) (env w)
  ∧ calls (trace (Run h ctx request writer w).2)
    = calls (trace w) ++ [(ctx, request)].
Proof.
  rewrite streaming_Run_unfold. cbv zeta. cbn [fst snd env trace].
  split; [reflexivity|]. split; [reflexivity|].
  rewrite !calls_app, events_calls.
  by destruct (log_requests (env w)),
    (log_requests (left_env writer (fn_ h ctx request) (env w))).
Qed.

(** X2.  For every behaviour of the flag and every answer of the writer,
    the messages a streaming [Run] hands to [Write] are the messages the
    body passes to [Send], all of them and in the same order: a write that
    fails does not stop or skip the writes after it. *)
Theorem streaming_Run_forwards_every_message (h : Handler) ctx request
    (w : World) :
  (writes (trace (Run h ctx request writer w).2)).*1
  = (writes (trace w)).*1 ++ sent writer (fn_ h ctx request) (env w).
Proof.
  rewrite streaming_Run_unfold. cbv zeta. cbn [fst snd env trace].
  rewrite !writes_app, !fmap_app, events_writes.
  destruct (log_requests (env w)),
    (log_requests (left_env writer (fn_ h ctx request) (env w)));
    exact (f_equal _ (app_nil_r _)).
Qed.

(** X3.  For every behaviour of the flag, the records a streaming [Run]
    adds are the request record if the flag is on at the start, one send
    record for each message sent while the flag is on, in sending order,
    and the completion record if the flag is on at the end; so at most
    N + 2 records for N messages. *)
Theorem streaming_Run_records (h : Handler) ctx request (w : World) :
  let body := fn_ h ctx request in
  let logged := logged_messages writer body (env w) in
  records (trace (Run h ctx request writer w).2)
  = records (trace w)
    ++ (if log_requests (env w)
        then [request_record (base h) request] else [])
    ++ (send_record <$> logged)
    ++ (if log_requests (left_env writer body (env w))
        then [completion_record (base h) (returned writer body (env w))]
        else [])
  ∧ logged `sublist_of` sent writer body (env w)
  ∧ length (records (trace (Run h ctx request writer w).2))
    ≤ length (records (trace w)) + (length (sent writer body (env w)) + 2).
Proof.
  intros body logged. subst body logged.
  pose proof (sublist_length _ _
    (logged_messages_sublist (fn_ h ctx request) (env w))) as Hlen.
  rewrite streaming_Run_unfold. cbv zeta. cbn [fst snd env trace].
  rewrite !records_app, events_records_logged.
  split; [|split; [apply logged_messages_sublist|]].
  - by destruct (log_requests (env w)),
      (log_requests (left_env writer (fn_ h ctx request) (env w))).
  - rewrite !length_app, length_fmap.
    destruct (log_requests (env w)),
      (log_requests (left_env writer (fn_ h ctx request) (env w)));
      unfold records; simpl; lia.
Qed.

(** X4.  A streaming [Run] during which the flag is off at the start, at
    every [Send] and at the end adds no log record, and still hands every
    message to the writer. *)
Theorem streaming_Run_logging_off (h : Handler) ctx request (w : World) :
  let body := fn_ h ctx request in
  log_requests (env w) = false →
  logged_messages writer body (env w) = [] →
  log_requests (left_env writer body (env w)) = false →
  records (trace (Run h ctx request writer w).2) = records (trace w)
  ∧ (writes (trace (Run h ctx request writer w).2)).*1
    = (writes (trace w)).*1 ++ sent writer body (env w)
  ∧ (Run h ctx request writer w).1 = returned writer body (env w).
Proof.
  intros body Hfirst Hsends Hlast. subst body.
  rewrite streaming_Run_unfold. cbv zeta. cbn [fst snd env trace].
  rewrite Hfirst, Hlast.
  rewrite !records_app, !writes_app, !fmap_app, events_writes,
    events_records_logged, Hsends.
  split; [exact (app_nil_r _)|]. split; [|reflexivity].
  exact (f_equal _ (app_nil_r _)).
Qed.

(** X5.  With verbose logging on at every query, the trace a streaming
    [Run] adds is the request record, the entry into the wrapped function,
    then for each write its send record immediately followed by the write
    itself, then the completion record. *)
Theorem streaming_Run_trace_logging_on (h : Handler) ctx request (w : World) :
  let body := fn_ h ctx request in
  log_requests (env w) = true →
  logging_at_sends writer body (env w) = true →
  log_requests (left_env writer body (env w)) = true →
  ∃ ws,
    trace (Run h ctx request writer w).2
    = trace w
      ++ [LogInfo (request_record (base h) request); Invoked ctx request]
      ++ mjoin ((λ p, [LogInfo (send_record p.1); Wrote p.1 p.2]) <$> ws)
      ++ [LogInfo (completion_record (base h)
                     (returned writer body (env w)))]
    ∧ ws.*1 = sent writer body (env w)
    ∧ writes (trace (Run h ctx request writer w).2)
      = writes (trace w) ++ ws.
Proof.
  intros body Hfirst Hsends Hlast. subst body.
  exists (writes (events writer (fn_ h ctx request) (env w))).
  rewrite streaming_Run_unfold. cbv zeta. cbn [fst snd env trace].
  rewrite Hfirst, Hlast, <- (events_interleaved _ _ Hsends).
  split; [reflexivity|]. split; [apply events_writes|].
  rewrite !writes_app. exact (f_equal _ (app_nil_r _)).
Qed.

(** X6.  A streaming [Run] only appends to the trace: what was logged,
    entered and written before stays in front, unchanged, and has no
    influence on the status, the environment or the events added. *)
Theorem streaming_Run_appends (h : Handler) ctx request (e : Env) :
  ∃ status e' added,
    ∀ earlier,
      Run h ctx request writer {| env := e; trace := earlier |}
      = (status, {| env := e'; trace := earlier ++ added |}).
Proof.
  do 3 eexists. intros earlier. rewrite streaming_Run_unfold.
  cbv zeta. cbn [env trace]. reflexivity.
Qed.
End StreamingRunAlways.

(** ** UnaryGRPCHandler::Run, whatever the flag does *)

Section UnaryRunAlways.
Context {RequestContext Env Status RequestT ResponseT : Type}.
Context `{!Config Env, !AbslStatus Status,
          !Message RequestT, !Message ResponseT}.

Import UnaryGRPCHandler.

Local Abbreviation Handler :=
  (UnaryGRPCHandler.t RequestContext Env Status RequestT ResponseT).
Local Abbreviation World := (World RequestContext Env RequestT ResponseT).

(** X7.  A unary [Run] only appends to the trace, and what it appends is
    the entry into the wrapped function, with at most the request record
    before it and at most the response record after it; the earlier trace
    has no influence on the result. *)
Theorem unary_Run_appends (h : Handler) ctx request response (e : Env) :
  let r := fn_ h ctx request response e in
  ∃ before after,
    (before = [] ∨ before = [LogInfo (request_record (base h) request)])
    ∧ (after = []
       ∨ after = [LogInfo (response_record (base h) r.1.2 r.1.1)])
    ∧ ∀ earlier : list (Event RequestContext RequestT ResponseT),
        Run h ctx request response {| env := e; trace := earlier |}
        = (r.1,
           {| env := r.2;
              trace := earlier ++ before ++ [Invoked ctx request] ++ after |}).
Proof.
  intros r. subst r.
  exists (if log_requests e
          then [LogInfo (request_record (base h) request)] else []).
  exists (if log_requests (fn_ h ctx request response e).2
          then [LogInfo (response_record (base h)
                           (fn_ h ctx request response e).1.2
                           (fn_ h ctx request response e).1.1)]
          else []).
  split; [destruct (log_requests e); auto|].
  split; [destruct (log_requests _); auto|].
  intros earlier. by rewrite unary_Run_unfold.
Qed.

(** X8.  The names of a unary handler reach the log text only: two
    wrappers around the same function under different names give the same
    status and response, leave the same environment, enter the function
    the same way and add the same number of records. *)
Theorem unary_Run_names_only_in_log (service1 method1 service2 method2 : string)
    (fn : HandlerFn RequestContext Env Status RequestT ResponseT)
    ctx request response (w : World) :
  let r1 := Run (new service1 method1 fn) ctx request response w in
  let r2 := Run (new service2 method2 fn) ctx request response w in
  r1.1 = r2.1
  ∧ env r1.2 = env r2.2
  ∧ calls (trace r1.2) = calls (trace r2.2)
  ∧ writes (trace r1.2) = writes (trace r2.2)
  ∧ length (records (trace r1.2)) = length (records (trace r2.2)).
Proof.
  intros r1 r2. subst r1 r2. rewrite !unary_Run_unfold.
  cbv zeta. cbn [fst snd env trace new fn_].
  rewrite !calls_app, !writes_app, !records_app, !length_app.
  destruct (log_requests (env w)),
    (log_requests (fn ctx request response (env w)).2); done.
Qed.
End UnaryRunAlways.

Section StreamingNames.
Context {RequestContext Env Status RequestT ResponseT : Type}.
Context `{!Config Env, !AbslStatus Status,
          !Message RequestT, !Message ResponseT}.

Import ServerStreamingGRPCHandler.

(** X9.  The names of a streaming handler reach the log text only: two
    wrappers around the same function under different names return the
    same status, leave the same environment, make the same writes with the
    same answers, and add the same number of records. *)
Theorem streaming_Run_names_only_in_log
    (service1 method1 service2 method2 : string)
    (fn : HandlerFn RequestContext Env Status RequestT ResponseT)
    ctx request (writer : ServerWriterInterface Env ResponseT)
    (w : World RequestContext Env RequestT ResponseT) :
  let r1 := Run (new service1 method1 fn) ctx request writer w in
  let r2 := Run (new service2 method2 fn) ctx request writer w in
  r1.1 = r2.1
  ∧ env r1.2 = env r2.2
  ∧ calls (trace r1.2) = calls (trace r2.2)
  ∧ writes (trace r1.2) = writes (trace r2.2)
  ∧ length (records (trace r1.2)) = length (records (trace r2.2)).
Proof.
  intros r1 r2. subst r1 r2. rewrite !streaming_Run_unfold.
  cbv zeta. cbn [fst snd env trace new fn_].
  rewrite !calls_app, !writes_app, !records_app, !length_app.
  destruct (log_requests (env w)),
    (log_requests (left_env writer (fn ctx request) (env w))); done.
Qed.
End StreamingNames.

(** ** The text of the records *)

Section Strings.
Implicit Types (s t : string) (c : Ascii.ascii).

Lemma append_cons c s t : String c s +:+ t = String c (s +:+ t).
Proof. reflexivity. Qed.

Lemma append_assoc s1 s2 s3 : (s1 +:+ s2) +:+ s3 = s1 +:+ s2 +:+ s3.
Proof.
  induction s1 as [|c s1 IH]; [reflexivity|].
  rewrite !append_cons. by f_equal.
Qed.

Lemma append_cons_ne s c t : s +:+ String c t ≠ s.
Proof.
  assert (∀ s t, String.length (s +:+ t) = String.length s + String.length t)
    as Hlength.
  { clear. intros s t. induction s as [|c s IH]; [done|].
    rewrite append_cons. simpl. by f_equal. }
  intros Heq. apply (f_equal String.length) in Heq.
  rewrite Hlength in Heq. simpl in Heq. lia.
Qed.

(** Two texts that agree and in which [c] first occurs after [s1] and
    after [s2] split at the same place. *)
Lemma append_split_at c s1 s2 t1 t2 :
  free_of c s1 = true → free_of c s2 = true →
  s1 +:+ String c t1 = s2 +:+ String c t2 →
  s1 = s2 ∧ t1 = t2.
Proof.
  revert s2. induction s1 as [|c1 s1 IH]; intros [|c2 s2];
    rewrite ?append_cons; change ("" +:+ ?x) with x; simpl.
  - intros _ _ [= ->]. done.
  - intros _ [Hne _]%andb_true_iff [= <- _].
    by rewrite Ascii.eqb_refl in Hne.
  - intros [Hne _]%andb_true_iff _ [= -> _].
    by rewrite Ascii.eqb_refl in Hne.
  - intros [_ Hfree1]%andb_true_iff [_ Hfree2]%andb_true_iff [= -> Hrest].
    destruct (IH _ Hfree1 Hfree2 Hrest) as [-> ->]. done.
Qed.
End Strings.

Section RecordTexts.
Context {Status RequestT ResponseT : Type}.
Context `{!AbslStatus Status, !Message RequestT, !Message ResponseT}.

Lemma outcome_text_inj_ok (status1 status2 : Status) :
  outcome_text status1 = outcome_text status2 → ok status1 = ok status2.
Proof.
  unfold outcome_text. by destruct (ok status1), (ok status2).
Qed.

(** X10.  The outcome a record ends with reads [OK] exactly for a status
    that is ok; a failure is never logged as [OK], and two completion or
    response records of a handler with the same text come from statuses
    that agree on being ok. *)
Theorem outcome_text_faithful (status : Status) :
  (outcome_text status = "OK" ↔ ok status = true)
  ∧ (∀ h (other : Status),
       completion_record h status = completion_record h other →
       ok status = ok other)
  ∧ (∀ h (response : ResponseT) (other : Status),
       response_record h response status = response_record h response other →
       ok status = ok other).
Proof.
  split; [|split].
  - unfold outcome_text. by destruct (ok status).
  - intros h other Heq. apply outcome_text_inj_ok.
    unfold completion_record in Heq.
    by repeat apply (inj (String.app _)) in Heq.
  - intros h response other Heq. apply outcome_text_inj_ok.
    unfold response_record in Heq.
    by repeat apply (inj (String.app _)) in Heq.
Qed.

(** X11.  The kinds of record are told apart by how their text starts: a
    send record is never a request, response or completion record, and a
    request record is never a response or completion record. *)
Theorem record_kinds_distinct (h h' : GRPCHandlerBase) (request : RequestT)
    (response msg : ResponseT) (status : Status) :
  send_record msg ≠ request_record h request
  ∧ send_record msg ≠ response_record h response status
  ∧ send_record msg ≠ completion_record h status
  ∧ request_record h request ≠ response_record h' response status
  ∧ request_record h request ≠ completion_record h' status.
Proof. repeat split; discriminate. Qed.

(** X12.  A request record names its handler and request: if no service
    name contains a dot and no method name a closing bracket, as for names
    that are C++ identifiers, two request records with the same text come
    from handlers with the same names and requests with the same debug
    text. *)
Theorem request_record_identifies (h1 h2 : GRPCHandlerBase)
    (request1 request2 : RequestT) :
  free_of dot (service_name h1) = true →
  free_of dot (service_name h2) = true →
  free_of closing_bracket (method_name h1) = true →
  free_of closing_bracket (method_name h2) = true →
  request_record h1 request1 = request_record h2 request2 →
  h1 = h2 ∧ DebugString request1 = DebugString request2.
Proof.
  destruct h1 as [service1 method1], h2 as [service2 method2].
  unfold request_record, service_name, method_name. cbn [service_name_ method_name_].
  intros Hs1 Hs2 Hm1 Hm2 Heq.
  apply (inj (String.app _)) in Heq.
  apply (append_split_at _ _ _ _ _ Hs1 Hs2) in Heq as [-> Heq].
  apply (append_split_at _ _ _ _ _ Hm1 Hm2) in Heq as [-> Heq].
  by apply (inj (String.app _)) in Heq.
Qed.

(** X13.  Without that condition the tag is ambiguous: the handler named
    (a.b, c) and the handler named (a, b.c) are different handlers that
    write the same request record for the same request. *)
Theorem request_record_ambiguous_with_dots (a b c : string)
    (request : RequestT) :
  new_GRPCHandlerBase (a +:+ "." +:+ b) c
  ≠ new_GRPCHandlerBase a (b +:+ "." +:+ c)
  ∧ request_record (new_GRPCHandlerBase (a +:+ "." +:+ b) c) request
    = request_record (new_GRPCHandlerBase a (b +:+ "." +:+ c)) request.
Proof.
  split.
  - intros [= Hservice _]. by apply append_cons_ne in Hservice.
  - unfold request_record, service_name, method_name, new_GRPCHandlerBase.
    cbn [service_name_ method_name_].
    rewrite !append_assoc. reflexivity.
Qed.
End RecordTexts.

(** ** REGISTER_GRPC_HANDLER *)

(** X14.  The static variable the macro declares does not determine the
    key it registers: for all identifiers a, b and c the uses
    (a_b, c) and (a, b_c) declare a variable of the same name while
    registering under different service names. *)
Theorem REGISTER_GRPC_HANDLER_variable_clash (a b c : string) :
  variable_name (REGISTER_GRPC_HANDLER (a +:+ "_" +:+ b) c)
  = variable_name (REGISTER_GRPC_HANDLER a (b +:+ "_" +:+ c))
  ∧ service_name_arg (REGISTER_GRPC_HANDLER (a +:+ "_" +:+ b) c)
    ≠ service_name_arg (REGISTER_GRPC_HANDLER a (b +:+ "_" +:+ c)).
Proof.
  split.
  - unfold REGISTER_GRPC_HANDLER. cbn [variable_name].
    rewrite !append_assoc. reflexivity.
  - cbn [REGISTER_GRPC_HANDLER service_name_arg]. apply append_cons_ne.
Qed.

(** ** Concrete runs of the further properties *)

Section MoreConcreteRuns.
Import Demo.

Lemma streaming_Run_logging_off_witness :
  ServerStreamingGRPCHandler.logged_messages peer (TwoRows () "request")
    (env quiet) = []
  ∧ records (trace (ServerStreamingGRPCHandler.Run two_rows () "request"
                      peer quiet).2) = []
  ∧ (writes (trace (ServerStreamingGRPCHandler.Run two_rows () "request"
                      peer quiet).2)).*1 = ["row1"; "row2"]
  ∧ (ServerStreamingGRPCHandler.Run two_rows () "request" peer quiet).1
    = OkStatus.
Proof.
  split; [reflexivity|].
  exact (streaming_Run_logging_off peer two_rows () "request" quiet
           eq_refl eq_refl eq_refl).
Defined.

Lemma streaming_Run_trace_logging_on_witness :
  ∃ ws,
    trace (ServerStreamingGRPCHandler.Run two_rows () "request" peer loud).2
    = [LogInfo ("Request[Spanner.Read]" +:+ nl +:+ "request");
       Invoked () "request"]
      ++ mjoin ((λ p, [LogInfo (send_record p.1); Wrote p.1 p.2]) <$> ws)
      ++ [LogInfo ("Response[Spanner.Read]" +:+ nl +:+ "OK")]
    ∧ ws.*1 = ["row1"; "row2"].
Proof.
  destruct (streaming_Run_trace_logging_on peer two_rows () "request" loud)
    as (ws & Htrace & Hsent & _); [reflexivity..|].
  exists ws. split; [exact Htrace|exact Hsent].
Defined.

Lemma outcome_text_faithful_witness :
  outcome_text (NotFound "session") ≠ "OK"
  ∧ outcome_text OkStatus = "OK".
Proof.
  split.
  - intros Hok.
    apply (proj1 (proj1 (outcome_text_faithful (ResponseT := string)
                           (NotFound "session")))) in Hok.
    discriminate Hok.
  - exact (proj2 (proj1 (outcome_text_faithful (ResponseT := string)
                           OkStatus)) eq_refl).
Defined.

Lemma request_record_identifies_witness :
  free_of dot "Spanner" = true
  ∧ free_of closing_bracket "GetSession" = true
  ∧ (request_record (new_GRPCHandlerBase "Spanner" "GetSession") "request"
     = request_record (UnaryGRPCHandler.base get_session) "request" →
     new_GRPCHandlerBase "Spanner" "GetSession"
     = UnaryGRPCHandler.base get_session).
Proof.
  split; [reflexivity|]. split; [reflexivity|].
  intros Heq.
  exact (proj1 (request_record_identifies
                  (new_GRPCHandlerBase "Spanner" "GetSession")
                  (UnaryGRPCHandler.base get_session)
                  "request" "request"
                  eq_refl eq_refl eq_refl eq_refl Heq)).
Defined.

(** Names with a dot are told apart by [free_of]. *)
Example free_of_dot :
  free_of dot "google.spanner.v1.Spanner" = false
  ∧ String dot (String closing_bracket "") = ".]".
Proof. split; reflexivity. Qed.
End MoreConcreteRuns.
